(** * Bank-System: a shallow embedding of [main.py]

    The two concrete classes of the program, [Customer] and [BankAccount],
    are embedded as records with their methods as computations in a small
    state-and-exception monad.  Python integers are unbounded, so they are
    modelled by [Z]; Python strings by [string].  Objects live in a store
    (one list per class, a reference is an index) so that the sharing of a
    customer between the program and the accounts it owns is visible. *)

From stdpp Require Import base numbers strings pretty list.

Open Scope string_scope.
Open Scope list_scope.
Open Scope Z_scope.

(** ** Python prelude *)

Module Py.

(** The only exception class the program raises. *)
Inductive exn : Type :=
| ValueError (msg : string).

(** Outcome of a call: a returned value or a raised exception. *)
Inductive result (A : Type) : Type :=
| Ok (a : A)
| Raise (e : exn).
Arguments Ok {A} a.
Arguments Raise {A} e.

(** A method body: it reads and writes the attributes of [self] (the state
    [S]) and either returns or raises.  The state is threaded through a
    [Raise] as well: whatever was assigned before the [raise] statement
    stays assigned. *)
Definition method (S A : Type) : Type := S → result A * S.

Definition ret {S A} (a : A) : method S A := λ s, (Ok a, s).
Definition raise {S A} (e : exn) : method S A := λ s, (Raise e, s).
Definition bind {S A B} (m : method S A) (k : A → method S B) : method S B :=
  λ s, match m s with
       | (Ok a, s') => k a s'
       | (Raise e, s') => (Raise e, s')
       end.
Definition get {S A} (attr : S → A) : method S A := λ s, (Ok (attr s), s).
Definition put {S} (upd : S → S) : method S unit := λ s, (Ok tt, upd s).

(** [str(n)] and the [{n}] of an f-string, for an [int]. *)
Definition str (n : Z) : string := pretty n.

(** The character written [\n] in a Python string literal. *)
Definition nl : string := String (Ascii.ascii_of_nat 10) "".

End Py.
Import Py.

Declare Scope py_scope.
Delimit Scope py_scope with py.
Notation "x <- m ; k" := (bind m (λ x, k))
  (at level 100, m at next level, right associativity, only parsing) : py_scope.
Notation "m ;; k" := (bind m (λ _, k))
  (at level 100, right associativity, only parsing) : py_scope.

(** ** class Customer *)

Record Customer : Type := mkCustomer {
  name : string;          (* self.__name *)
  email : string;         (* self.__email *)
  customer_id : Z;        (* self.__customer_id *)
}.

Module CustomerM.

Definition with_email (e : string) (self : Customer) : Customer :=
  {| name := name self; email := e; customer_id := customer_id self |}.

(** [Customer.get_info] *)
Definition get_info (self : Customer) : string :=
  "Customer: " +:+ name self +:+ " " +:+ nl +:+
  "Email: " +:+ email self +:+ " " +:+ nl +:+
  "Customer ID: " +:+ str (customer_id self).

(** The [email] property. *)
Definition email_getter : method Customer string := get email.

(** The [email] setter. *)
Definition email_setter (new_email : string) : method Customer unit :=
  put (with_email new_email).

End CustomerM.

(** ** class BankAccount *)

(** A reference to an object: its index in the store of its class. *)
Abbreviation loc := nat (only parsing).

Record BankAccount : Type := mkBankAccount {
  owner : loc;                    (* self.owner, a reference to a Customer *)
  balance : Z;                    (* self.__balance *)
  account_number : Z;             (* self.__account_number *)
  account_initiation : bool;      (* self.__account_initiation *)
}.

Module Account.

Definition with_balance (b : Z) (self : BankAccount) : BankAccount :=
  {| owner := owner self; balance := b;
     account_number := account_number self;
     account_initiation := account_initiation self |}.

Definition with_account_initiation (i : bool) (self : BankAccount) : BankAccount :=
  {| owner := owner self; balance := balance self;
     account_number := account_number self;
     account_initiation := i |}.

Definition err_top_up : exn := ValueError "Top ups should be positive amount.".
Definition err_withdraw : exn := ValueError "Insufficient balance.".
Definition err_balance : exn := ValueError "Balance should be above 0.".

(** [BankAccount.top_up] *)
Definition top_up (value : Z) : method BankAccount string :=
  (if bool_decide (value ≤ 0) then raise err_top_up
   else
     b <- get balance;
     put (with_balance (b + value));;
     put (with_account_initiation false);;
     b' <- get balance;
     ret ("You have topped up " +:+ str value +:+
          " USD. Current balance: " +:+ str b' +:+ " USD"))%py.

(** [BankAccount.withdraw] *)
Definition withdraw (value : Z) : method BankAccount string :=
  (b <- get balance;
   if bool_decide (b < value) then raise err_withdraw
   else
     put (with_balance (b - value));;
     b' <- get balance;
     ret ("You have withdrawn " +:+ str value +:+
          " USD. Remaining balance: " +:+ str b' +:+ " USD"))%py.

(** [BankAccount.get_account_number] *)
Definition get_account_number : method BankAccount string :=
  (n <- get account_number;
   ret ("Account number: " +:+ str n))%py.

(** The [balance] property. *)
Definition balance_getter : method BankAccount Z := get balance.

(** The [balance] setter. *)
Definition balance_setter (value : Z) : method BankAccount unit :=
  (if bool_decide (value ≤ 0) then raise err_balance
   else
     i <- get account_initiation;
     if i then
       put (with_balance value);;
       put (with_account_initiation false)
     else ret tt)%py.

(** [BankAccount.get_account_owner_info]: [self.owner.get_info()], with the
    owner looked up in the store of customers.  [None] only when [owner]
    names no customer, which a Python reference never does. *)
Definition get_account_owner_info (customers : list Customer)
    (self : BankAccount) : option string :=
  CustomerM.get_info <$> customers !! owner self.

End Account.


(** ** The process: class attributes and the object store *)

Record World : Type := mkWorld {
  customer_counter : Z;           (* Customer.__customer_counter *)
  account_counter : Z;            (* BankAccount.__account_counter *)
  customers : list Customer;      (* the Customer objects, oldest first *)
  accounts : list BankAccount;    (* the BankAccount objects, oldest first *)
}.

(** The state once the two class bodies have been executed. *)
Definition startup : World := mkWorld 0 0 [] [].

Module Store.

Definition with_customer_counter (n : Z) (w : World) : World :=
  mkWorld n (account_counter w) (customers w) (accounts w).
Definition with_account_counter (n : Z) (w : World) : World :=
  mkWorld (customer_counter w) n (customers w) (accounts w).
Definition with_customers (cs : list Customer) (w : World) : World :=
  mkWorld (customer_counter w) (account_counter w) cs (accounts w).
Definition with_accounts (bs : list BankAccount) (w : World) : World :=
  mkWorld (customer_counter w) (account_counter w) (customers w) bs.

(** Allocation: the new object goes to the end of its store and its
    reference is returned. *)
Definition new_customer (c : Customer) : method World loc :=
  (cs <- get customers;
   put (with_customers (cs ++ [c]));;
   ret (length cs))%py.
Definition new_account (b : BankAccount) : method World loc :=
  (bs <- get accounts;
   put (with_accounts (bs ++ [b]));;
   ret (length bs))%py.

(** [Customer.__init__], with the allocation of [self]. *)
Definition Customer__init__ (name email : string) : method World loc :=
  (n <- get customer_counter;
   put (with_customer_counter (n + 1));;
   n' <- get customer_counter;
   new_customer {| name := name; email := email; customer_id := n' |})%py.

(** [BankAccount.__init__], with the allocation of [self]. *)
Definition BankAccount__init__ (owner : loc) : method World loc :=
  (n <- get account_counter;
   put (with_account_counter (n + 1));;
   n' <- get account_counter;
   new_account {| owner := owner; balance := 0; account_number := n';
                  account_initiation := true |})%py.

End Store.

(** ** Calls a client of the two classes can make *)

Inductive call : Type :=
| NewCustomer (name email : string)           (* Customer(name, email) *)
| GetInfo (c : loc)                           (* c.get_info() *)
| GetEmail (c : loc)                          (* c.email *)
| SetEmail (c : loc) (new_email : string)     (* c.email = new_email *)
| NewBankAccount (owner : loc)                (* BankAccount(owner) *)
| TopUp (a : loc) (value : Z)                 (* a.top_up(value) *)
| Withdraw (a : loc) (value : Z)              (* a.withdraw(value) *)
| GetAccountNumber (a : loc)                  (* a.get_account_number() *)
| GetAccountOwnerInfo (a : loc)               (* a.get_account_owner_info() *)
| GetBalance (a : loc)                        (* a.balance *)
| SetBalance (a : loc) (value : Z).           (* a.balance = value *)

Inductive value : Type :=
| VNone
| VInt (n : Z)
| VStr (s : string)
| VRef (l : loc).

(** What the caller observes.  [NoObject] marks a call through a reference
    that names no object of the store; no Python program can make one, and
    such a call has no effect here. *)
Inductive outcome : Type :=
| Returned (v : value)
| Raised (e : exn)
| NoObject.

Module Run.
Import Store.

Definition observe {A} (inj : A → value) (r : result A) : outcome :=
  match r with
  | Ok a => Returned (inj a)
  | Raise e => Raised e
  end.

(** Run a method on the customer at [c], writing [self] back. *)
Definition on_customer {A} (c : loc) (m : method Customer A)
    (inj : A → value) (w : World) : outcome * World :=
  match customers w !! c with
  | None => (NoObject, w)
  | Some self =>
      let '(r, self') := m self in
      (observe inj r, with_customers (<[c := self']> (customers w)) w)
  end.

(** Run a method on the account at [a], writing [self] back. *)
Definition on_account {A} (a : loc) (m : method BankAccount A)
    (inj : A → value) (w : World) : outcome * World :=
  match accounts w !! a with
  | None => (NoObject, w)
  | Some self =>
      let '(r, self') := m self in
      (observe inj r, with_accounts (<[a := self']> (accounts w)) w)
  end.

Definition construct (m : method World loc) (w : World) : outcome * World :=
  let '(r, w') := m w in (observe VRef r, w').

Definition exec (c : call) (w : World) : outcome * World :=
  match c with
  | NewCustomer name email => construct (Customer__init__ name email) w
  | GetInfo c => on_customer c (get CustomerM.get_info) VStr w
  | GetEmail c => on_customer c CustomerM.email_getter VStr w
  | SetEmail c new_email =>
      on_customer c (CustomerM.email_setter new_email) (λ _, VNone) w
  | NewBankAccount owner => construct (BankAccount__init__ owner) w
  | TopUp a v => on_account a (Account.top_up v) VStr w
  | Withdraw a v => on_account a (Account.withdraw v) VStr w
  | GetAccountNumber a => on_account a Account.get_account_number VStr w
  | GetAccountOwnerInfo a =>
      match accounts w !! a with
      | None => (NoObject, w)
      | Some self =>
          match Account.get_account_owner_info (customers w) self with
          | Some s => (Returned (VStr s), w)
          | None => (NoObject, w)
          end
      end
  | GetBalance a => on_account a Account.balance_getter VInt w
  | SetBalance a v => on_account a (Account.balance_setter v) (λ _, VNone) w
  end.

(** A client that makes the calls in order and carries on after an
    exception (it catches it); a client that lets the exception escape
    stops there, which is a run of a prefix. *)
Fixpoint run (cs : list call) (w : World) : World :=
  match cs with
  | [] => w
  | c :: cs => run cs (snd (exec c w))
  end.

Fixpoint trace (cs : list call) (w : World) : list outcome :=
  match cs with
  | [] => []
  | c :: cs => fst (exec c w) :: trace cs (snd (exec c w))
  end.

Definition is_new_customer (c : call) : bool :=
  match c with NewCustomer _ _ => true | _ => false end.
Definition is_new_account (c : call) : bool :=
  match c with NewBankAccount _ => true | _ => false end.

End Run.

(** The calls of [main], without the [print]s. *)
Definition main_calls : list call :=
  [ NewCustomer "Davide Blane" "dave@mail.com";
    NewCustomer "Mark" "mark@mail.ua";
    NewBankAccount 0%nat;
    NewBankAccount 1%nat;
    GetAccountOwnerInfo 0%nat;
    GetAccountNumber 1%nat;
    GetAccountOwnerInfo 1%nat;
    SetBalance 1%nat 222;
    GetBalance 1%nat;
    SetBalance 1%nat 2202;
    GetBalance 1%nat ].

(** A freshly constructed account, as [BankAccount.__init__] leaves it. *)
Definition fresh_account (owner : loc) (n : Z) : BankAccount :=
  {| owner := owner; balance := 0; account_number := n;
     account_initiation := true |}.

(** ** The shape of a step of the store *)

Module Frame.
Import Store Run.

(** What every method of [BankAccount] keeps of [self]. *)
Record account_kept (self self' : BankAccount) : Prop := {
  kept_owner : owner self' = owner self;
  kept_number : account_number self' = account_number self;
  kept_nonneg : 0 ≤ balance self → 0 ≤ balance self';
  kept_locked : account_initiation self = false →
                account_initiation self' = false;
}.

(** What every method of [Customer] keeps of [self]. *)
Record customer_kept (self self' : Customer) : Prop := {
  kept_name : name self' = name self;
  kept_id : customer_id self' = customer_id self;
}.

(** The store of accounts after a call: as before, or one account
    replaced by a later state of itself, or one account more. *)
Inductive accounts_step (w w' : World) : bool → Prop :=
| accounts_same :
    accounts w' = accounts w →
    account_counter w' = account_counter w →
    accounts_step w w' false
| accounts_update a self self' :
    accounts w !! a = Some self →
    account_kept self self' →
    accounts w' = <[a := self']> (accounts w) →
    account_counter w' = account_counter w →
    accounts_step w w' false
| accounts_new o :
    accounts w' = accounts w ++ [fresh_account o (account_counter w + 1)] →
    account_counter w' = account_counter w + 1 →
    accounts_step w w' true.

Inductive customers_step (w w' : World) : bool → Prop :=
| customers_same :
    customers w' = customers w →
    customer_counter w' = customer_counter w →
    customers_step w w' false
| customers_update c self self' :
    customers w !! c = Some self →
    customer_kept self self' →
    customers w' = <[c := self']> (customers w) →
    customer_counter w' = customer_counter w →
    customers_step w w' false
| customers_new n e :
    customers w' = customers w ++ [mkCustomer n e (customer_counter w + 1)] →
    customer_counter w' = customer_counter w + 1 →
    customers_step w w' true.

End Frame.

(** ** Properties of a store *)

Module Inv.
Import Run.

(** No account is overdrawn. *)
Definition nonneg (w : World) : Prop :=
  Forall (λ self, 0 ≤ balance self) (accounts w).

(** The account at [a] exists and its initiation flag is clear. *)
Definition locked (a : loc) (w : World) : Prop :=
  ∃ self, accounts w !! a = Some self ∧ account_initiation self = false.

(** The identifiers in a store are 1, 2, 3, ... in the order of creation,
    and the class counter is the last one given out. *)
Definition customers_numbered (w : World) : Prop :=
  customer_counter w = Z.of_nat (length (customers w)) ∧
  customer_id <$> customers w = Z.of_nat <$> seq 1 (length (customers w)).

Definition accounts_numbered (w : World) : Prop :=
  account_counter w = Z.of_nat (length (accounts w)) ∧
  account_number <$> accounts w = Z.of_nat <$> seq 1 (length (accounts w)).

Definition customers_created (cs : list call) : nat :=
  length (List.filter is_new_customer cs).
Definition accounts_created (cs : list call) : nat :=
  length (List.filter is_new_account cs).

End Inv.

(** ** Money moved by calls *)

Module Ledger.
Import Run.



End Ledger.

(** ** The program [main] *)

Module Main.
Import Store.

(** The process as [main] sees it: the store and the lines printed so far
    (each [print] writes one line). *)
Record Proc : Type := mkProc {
  world : World;
  stdout : list string;
}.

(** A piece of program: it returns or lets an exception escape ([None]
    stands for a use of a reference that names no object, which does not
    occur in a Python program). *)
Definition prog (A : Type) : Type := Proc → option (result A * Proc).

Definition pret {A} (a : A) : prog A := λ p, Some (Ok a, p).
Definition pbind {A B} (m : prog A) (k : A → prog B) : prog B :=
  λ p, match m p with
       | Some (Ok a, p') => k a p'
       | Some (Raise e, p') => Some (Raise e, p')
       | None => None
       end.

(** A constructor call. *)
Definition create (m : method World loc) : prog loc :=
  λ p, let '(r, w') := m (world p) in Some (r, mkProc w' (stdout p)).

(** A method call or property access on the account [a]. *)
Definition at_account {A} (a : loc) (m : method BankAccount A) : prog A :=
  λ p, match accounts (world p) !! a with
       | None => None
       | Some self =>
           let '(r, self') := m self in
           Some (r, mkProc (with_accounts (<[a := self']> (accounts (world p)))
                              (world p))
                           (stdout p))
       end.

(** [a.get_account_owner_info()] *)
Definition owner_info (a : loc) : prog string :=
  λ p, match accounts (world p) !! a with
       | None => None
       | Some self =>
           match Account.get_account_owner_info (customers (world p)) self with
           | None => None
           | Some s => Some (Ok s, p)
           end
       end.

(** [print(s)] *)
Definition print (s : string) : prog unit :=
  λ p, Some (Ok tt, mkProc (world p) (stdout p ++ [s])).

End Main.

Declare Scope prog_scope.
Delimit Scope prog_scope with prog.
Notation "x <- m ; k" := (Main.pbind m (λ x, k))
  (at level 100, m at next level, right associativity, only parsing) : prog_scope.
Notation "m ;; k" := (Main.pbind m (λ _, k))
  (at level 100, right associativity, only parsing) : prog_scope.

(** [main] *)
Definition main : Main.prog unit :=
  (customer1 <- Main.create (Store.Customer__init__ "Davide Blane" "dave@mail.com");
   customer3 <- Main.create (Store.Customer__init__ "Mark" "mark@mail.ua");
   cust1_account <- Main.create (Store.BankAccount__init__ customer1);
   cust3_account <- Main.create (Store.BankAccount__init__ customer3);
   s <- Main.owner_info cust1_account; Main.print s;;
   s <- Main.at_account cust3_account Account.get_account_number; Main.print s;;
   s <- Main.owner_info cust3_account; Main.print s;;
   Main.at_account cust3_account (Account.balance_setter 222);;
   b <- Main.at_account cust3_account Account.balance_getter; Main.print (str b);;
   Main.at_account cust3_account (Account.balance_setter 2202);;
   b <- Main.at_account cust3_account Account.balance_getter; Main.print (str b))%prog.

(** ** Texts *)

Module Text.

(** No character of [s] is a space. *)
Fixpoint spaceless (s : string) : Prop :=
  match s with
  | EmptyString => True
  | String c s' => c ≠ Ascii.Space ∧ spaceless s'
  end.

(** What [get_info] puts before the last space of its text. *)
Definition info_head (self : Customer) : string :=
  "Customer: " +:+ name self +:+ " " +:+ nl +:+
  "Email: " +:+ email self +:+ " " +:+ nl +:+ "Customer ID:".

End Text.

(** * Properties *)

(** ** The scenarios of the specification *)

Example main_trace :
  Run.trace main_calls startup =
  [ Returned (VRef 0%nat); Returned (VRef 1%nat);
    Returned (VRef 0%nat); Returned (VRef 1%nat);
    Returned (VStr ("Customer: Davide Blane " +:+ nl +:+
                    "Email: dave@mail.com " +:+ nl +:+ "Customer ID: 1"));
    Returned (VStr "Account number: 2");
    Returned (VStr ("Customer: Mark " +:+ nl +:+
                    "Email: mark@mail.ua " +:+ nl +:+ "Customer ID: 2"));
    Returned VNone; Returned (VInt 222);
    Returned VNone; Returned (VInt 222) ].
Proof. vm_compute. reflexivity. Qed.

Example scenario_top_up_withdraw :
  let a0 := fresh_account 0 1 in
  let a1 := snd (Account.top_up 100 a0) in
  Account.top_up 100 a0
  = (Ok "You have topped up 100 USD. Current balance: 100 USD",
     mkBankAccount 0 100 1 false) ∧
  Account.withdraw 150 a1 = (Raise (ValueError "Insufficient balance."), a1) ∧
  Account.withdraw 50 a1
  = (Ok "You have withdrawn 50 USD. Remaining balance: 50 USD",
     mkBankAccount 0 50 1 false).
Proof. vm_compute. auto. Qed.

(** ** Single calls on one account *)

Section OneAccount.
Import Account.
Variable self : BankAccount.

(** Unfold a method body down to its test. *)
Ltac body m := unfold m, bind, get, put, ret, raise; simpl.

Lemma top_up_raises (v : Z) :
  v ≤ 0 → top_up v self = (Raise err_top_up, self).
Proof. intros Hv. body top_up. by rewrite bool_decide_eq_true_2. Qed.

Lemma top_up_returns (v : Z) :
  0 < v →
  top_up v self
  = (Ok ("You have topped up " +:+ str v +:+ " USD. Current balance: " +:+
         str (balance self + v) +:+ " USD"),
     with_account_initiation false (with_balance (balance self + v) self)).
Proof.
  intros Hv. body top_up. rewrite bool_decide_eq_false_2 by lia. done.
Qed.

Lemma withdraw_raises (v : Z) :
  balance self < v → withdraw v self = (Raise err_withdraw, self).
Proof. intros Hv. body withdraw. by rewrite bool_decide_eq_true_2. Qed.

Lemma withdraw_returns (v : Z) :
  v ≤ balance self →
  withdraw v self
  = (Ok ("You have withdrawn " +:+ str v +:+ " USD. Remaining balance: " +:+
         str (balance self - v) +:+ " USD"),
     with_balance (balance self - v) self).
Proof.
  intros Hv. body withdraw. rewrite bool_decide_eq_false_2 by lia. done.
Qed.

Lemma balance_setter_raises (v : Z) :
  v ≤ 0 → balance_setter v self = (Raise err_balance, self).
Proof. intros Hv. body balance_setter. by rewrite bool_decide_eq_true_2. Qed.

Lemma balance_setter_assigns (v : Z) :
  0 < v → account_initiation self = true →
  balance_setter v self
  = (Ok tt, with_account_initiation false (with_balance v self)).
Proof.
  intros Hv Hi. body balance_setter.
  rewrite bool_decide_eq_false_2 by lia. by rewrite Hi.
Qed.

Lemma balance_setter_ignores (v : Z) :
  0 < v → account_initiation self = false →
  balance_setter v self = (Ok tt, self).
Proof.
  intros Hv Hi. body balance_setter.
  rewrite bool_decide_eq_false_2 by lia. by rewrite Hi.
Qed.

End OneAccount.





(** C5.  In every state of the account, assigning [v <= 0] to [balance]
    raises (the [ValueError] "Balance should be above 0."); assigning
    [v > 0] while the initiation flag is set makes the balance [v] and
    clears the flag. *)
Theorem balance_setter_spec (self : BankAccount) (v : Z) :
  (v ≤ 0 →
     fst (Account.balance_setter v self)
     = Raise (ValueError "Balance should be above 0.")) ∧
  (0 < v → account_initiation self = true →
     Account.balance_setter v self
     = (Ok tt, {| owner := owner self; balance := v;
                  account_number := account_number self;
                  account_initiation := false |})).
Proof.
  split.
  - intros Hv. by rewrite balance_setter_raises.
  - intros Hv Hi. by rewrite balance_setter_assigns.
Qed.

Lemma balance_setter_spec_witness :
  fst (Account.balance_setter 0 (mkBankAccount 1 50 2 false))
  = Raise (ValueError "Balance should be above 0.") ∧
  Account.balance_setter 222 (fresh_account 1 2)
  = (Ok tt, mkBankAccount 1 222 2 false).
Proof.
  split.
  - apply (proj1 (balance_setter_spec (mkBankAccount 1 50 2 false) 0)). lia.
  - apply (proj2 (balance_setter_spec (fresh_account 1 2) 222)); [lia|reflexivity].
Defined.



(** C2, as stated, fails on a withdrawal: on a new account [withdraw(0)]
    and [withdraw(-5)] both return, the second one changes the balance, and
    the initiation flag is still set afterwards, so that a later assignment
    to [balance] still takes effect. *)
Lemma withdraw_keeps_flag_set :
  let a := fresh_account 0 1 in
  Account.withdraw 0 a
  = (Ok "You have withdrawn 0 USD. Remaining balance: 0 USD", a) ∧
  account_initiation (snd (Account.withdraw 0 a)) = true ∧
  Account.withdraw (-5) a
  = (Ok "You have withdrawn -5 USD. Remaining balance: 5 USD",
     mkBankAccount 0 5 1 true) ∧
  account_initiation (snd (Account.withdraw (-5) a)) ≠ false ∧
  Account.balance_setter 222 (snd (Account.withdraw (-5) a))
  = (Ok tt, mkBankAccount 0 222 1 false).
Proof. vm_compute. split_and!; done. Qed.

(** C2, amended.  After a [top_up] that returns and after an assignment to
    [balance] that returns, the initiation flag is clear; a [withdraw] that
    returns leaves the flag as it was. *)
Theorem flag_after_success (self : BankAccount) (v : Z) :
  (∀ msg, fst (Account.top_up v self) = Ok msg →
          account_initiation (snd (Account.top_up v self)) = false) ∧
  (fst (Account.balance_setter v self) = Ok tt →
          account_initiation (snd (Account.balance_setter v self)) = false) ∧
  (∀ msg, fst (Account.withdraw v self) = Ok msg →
          account_initiation (snd (Account.withdraw v self))
          = account_initiation self).
Proof.
  split_and!.
  - intros msg. destruct (decide (v ≤ 0)) as [Hv|Hv].
    + by rewrite top_up_raises.
    + by rewrite top_up_returns by lia.
  - destruct (decide (v ≤ 0)) as [Hv|Hv].
    + by rewrite balance_setter_raises.
    + destruct (account_initiation self) eqn:Hi.
      * by rewrite balance_setter_assigns by (done || lia).
      * by rewrite balance_setter_ignores by (done || lia).
  - intros msg. destruct (decide (balance self < v)) as [Hv|Hv].
    + by rewrite withdraw_raises.
    + by rewrite withdraw_returns by lia.
Qed.

Lemma flag_after_success_witness :
  account_initiation (snd (Account.top_up 100 (fresh_account 0 1))) = false ∧
  account_initiation (snd (Account.balance_setter 222 (fresh_account 0 1)))
  = false ∧
  account_initiation (snd (Account.withdraw (-5) (fresh_account 0 1))) = true.
Proof.
  split_and!.
  - apply (proj1 (flag_after_success (fresh_account 0 1) 100)
             "You have topped up 100 USD. Current balance: 100 USD").
    reflexivity.
  - apply (proj1 (proj2 (flag_after_success (fresh_account 0 1) 222))).
    reflexivity.
  - apply (proj2 (proj2 (flag_after_success (fresh_account 0 1) (-5)))
             "You have withdrawn -5 USD. Remaining balance: 5 USD").
    reflexivity.
Defined.

(** ** What one call does to the store *)

Section Frame_lemmas.
Import Store Run Frame.

Lemma account_kept_refl self : account_kept self self.
Proof. by split. Qed.

Lemma top_up_kept v self : account_kept self (snd (Account.top_up v self)).
Proof.
  destruct (decide (v ≤ 0)).
  - rewrite top_up_raises by done. apply account_kept_refl.
  - rewrite top_up_returns by lia. split; simpl; auto with lia.
Qed.

Lemma withdraw_kept v self : account_kept self (snd (Account.withdraw v self)).
Proof.
  destruct (decide (balance self < v)).
  - rewrite withdraw_raises by done. apply account_kept_refl.
  - rewrite withdraw_returns by lia. split; simpl; auto with lia.
Qed.

Lemma balance_setter_kept v self :
  account_kept self (snd (Account.balance_setter v self)).
Proof.
  destruct (decide (v ≤ 0)).
  - rewrite balance_setter_raises by done. apply account_kept_refl.
  - destruct (account_initiation self) eqn:Hi.
    + rewrite balance_setter_assigns by (done || lia).
      split; simpl; auto with lia.
    + rewrite balance_setter_ignores by (done || lia).
      apply account_kept_refl.
Qed.

Lemma on_account_step {A} a (m : method BankAccount A) inj w :
  (∀ self, account_kept self (snd (m self))) →
  accounts_step w (snd (on_account a m inj w)) false ∧
  customers_step w (snd (on_account a m inj w)) false.
Proof.
  intros Hm. unfold on_account.
  destruct (accounts w !! a) as [self|] eqn:Ha; simpl.
  - specialize (Hm self). destruct (m self) as [r self']; simpl in *.
    split; [by eapply accounts_update | by apply customers_same].
  - split; [by apply accounts_same | by apply customers_same].
Qed.

Lemma on_customer_step {A} c (m : method Customer A) inj w :
  (∀ self, customer_kept self (snd (m self))) →
  accounts_step w (snd (on_customer c m inj w)) false ∧
  customers_step w (snd (on_customer c m inj w)) false.
Proof.
  intros Hm. unfold on_customer.
  destruct (customers w !! c) as [self|] eqn:Hc; simpl.
  - specialize (Hm self). destruct (m self) as [r self']; simpl in *.
    split; [by apply accounts_same | by eapply customers_update].
  - split; [by apply accounts_same | by apply customers_same].
Qed.

(** Every call is one of the steps above, on both stores. *)
Lemma exec_step c w :
  accounts_step w (snd (exec c w)) (is_new_account c) ∧
  customers_step w (snd (exec c w)) (is_new_customer c).
Proof.
  destruct c; simpl.
  - split; [by apply accounts_same | by eapply customers_new].
  - by apply on_customer_step.
  - by apply on_customer_step.
  - by apply on_customer_step.
  - split; [by eapply accounts_new | by apply customers_same].
  - apply on_account_step, top_up_kept.
  - apply on_account_step, withdraw_kept.
  - apply on_account_step. intros; apply account_kept_refl.
  - destruct (accounts w !! a) as [self|]; simpl;
      [destruct (Account.get_account_owner_info _ _)|]; simpl;
      (split; [by apply accounts_same | by apply customers_same]).
  - apply on_account_step. intros; apply account_kept_refl.
  - apply on_account_step, balance_setter_kept.
Qed.

End Frame_lemmas.

(** ** Runs from startup *)

Section Runs.
Import Store Run Frame Inv.

(** A property kept by every call is kept by every run. *)
Lemma run_keeps (P : World → Prop) :
  (∀ c w, P w → P (snd (exec c w))) →
  ∀ cs w, P w → P (run cs w).
Proof.
  intros Hstep cs. induction cs as [|c cs IH]; intros w Hw; simpl; auto.
Qed.

Lemma run_app cs1 cs2 w : run (cs1 ++ cs2) w = run cs2 (run cs1 w).
Proof. revert w. induction cs1 as [|c cs1 IH]; intros w; simpl; auto. Qed.

Lemma exec_nonneg c w : nonneg w → nonneg (snd (exec c w)).
Proof.
  unfold nonneg. intros Hw.
  destruct (exec_step c w) as [Ha _].
  destruct Ha as [Heq _ | a self self' Hl Hk Heq _ | o Heq _]; rewrite Heq.
  - done.
  - apply Forall_insert; [done|].
    apply Hk. by eapply (Forall_lookup_1 _ _ _ _ Hw).
  - apply Forall_app. split; [done|]. by apply Forall_singleton.
Qed.

Lemma exec_locked a c w : locked a w → locked a (snd (exec c w)).
Proof.
  intros (self & Hself & Hflag).
  destruct (exec_step c w) as [Ha _].
  destruct Ha as [Heq _ | a' self0 self' Hl Hk Heq _ | o Heq _];
    unfold locked; rewrite Heq.
  - by exists self.
  - destruct (decide (a' = a)) as [->|Hne].
    + exists self'. split.
      * apply list_lookup_insert_eq. by eapply lookup_lt_Some.
      * apply Hk. congruence.
    + exists self. by rewrite list_lookup_insert_ne.
  - exists self. split; [|done]. by apply lookup_app_l_Some.
Qed.

Lemma seq_snoc (n : nat) :
  Z.of_nat <$> seq 1 (S n) = (Z.of_nat <$> seq 1 n) ++ [Z.of_nat n + 1].
Proof.
  rewrite seq_S, fmap_app. simpl. do 2 f_equal. lia.
Qed.

Lemma exec_customers c w :
  customers_numbered w →
  customers_numbered (snd (exec c w)) ∧
  length (customers (snd (exec c w)))
  = (length (customers w) + customers_created [c])%nat.
Proof.
  intros [Hctr Hids]. unfold customers_numbered, customers_created. simpl.
  destruct (exec_step c w) as [_ Hc].
  destruct Hc as [Heq Hn | l self self' Hl Hk Heq Hn | n e Heq Hn];
    rewrite Heq, Hn; simpl.
  - split; [by split | lia].
  - rewrite length_insert, list_fmap_insert, (kept_id _ _ Hk).
    split; [|lia]. split; [done|].
    rewrite list_insert_id; [done|]. by rewrite list_lookup_fmap, Hl.
  - rewrite length_app, fmap_app, Nat.add_1_r, seq_snoc. simpl.
    split; [|lia]. split; [lia|]. by rewrite Hids, Hctr.
Qed.

Lemma exec_accounts c w :
  accounts_numbered w →
  accounts_numbered (snd (exec c w)) ∧
  length (accounts (snd (exec c w)))
  = (length (accounts w) + accounts_created [c])%nat.
Proof.
  intros [Hctr Hids]. unfold accounts_numbered, accounts_created. simpl.
  destruct (exec_step c w) as [Ha _].
  destruct Ha as [Heq Hn | l self self' Hl Hk Heq Hn | o Heq Hn];
    rewrite Heq, Hn; simpl.
  - split; [by split | lia].
  - rewrite length_insert, list_fmap_insert, (kept_number _ _ Hk).
    split; [|lia]. split; [done|].
    rewrite list_insert_id; [done|]. by rewrite list_lookup_fmap, Hl.
  - rewrite length_app, fmap_app, Nat.add_1_r, seq_snoc. simpl.
    split; [|lia]. split; [lia|]. by rewrite Hids, Hctr.
Qed.

Lemma run_numbered cs w :
  customers_numbered w → accounts_numbered w →
  (customers_numbered (run cs w) ∧
   length (customers (run cs w))
   = (length (customers w) + customers_created cs)%nat) ∧
  (accounts_numbered (run cs w) ∧
   length (accounts (run cs w))
   = (length (accounts w) + accounts_created cs)%nat).
Proof.
  revert w. induction cs as [|c cs IH]; intros w Hc Ha.
  - unfold customers_created, accounts_created. simpl.
    rewrite !Nat.add_0_r. done.
  - destruct (exec_customers c w Hc) as [Hc' Hlc].
    destruct (exec_accounts c w Ha) as [Ha' Hla].
    destruct (IH _ Hc' Ha') as [[? Hl1] [? Hl2]].
    simpl. split; (split; [done|]).
    + rewrite Hl1, Hlc. unfold customers_created. simpl.
      destruct (is_new_customer c); simpl; lia.
    + rewrite Hl2, Hla. unfold accounts_created. simpl.
      destruct (is_new_account c); simpl; lia.
Qed.

Lemma startup_numbered : customers_numbered startup ∧ accounts_numbered startup.
Proof. by repeat split. Qed.

End Runs.

Section Store_lemmas.
Import Store Run Inv.

Lemma with_accounts_id w a self :
  accounts w !! a = Some self →
  with_accounts (<[a := self]> (accounts w)) w = w.
Proof.
  intros Ha. unfold with_accounts. rewrite list_insert_id by done.
  by destruct w.
Qed.

Lemma with_customers_id w c self :
  customers w !! c = Some self →
  with_customers (<[c := self]> (customers w)) w = w.
Proof.
  intros Hc. unfold with_customers. rewrite list_insert_id by done.
  by destruct w.
Qed.

(** A method that leaves [self] as it is leaves the world as it is. *)
Lemma on_account_same {A} a (m : method BankAccount A) inj w self r :
  accounts w !! a = Some self → m self = (r, self) →
  on_account a m inj w = (observe inj r, w).
Proof.
  intros Ha Hm. unfold on_account. rewrite Ha, Hm.
  by rewrite with_accounts_id.
Qed.

Lemma exec_get_info w c self :
  customers w !! c = Some self →
  exec (GetInfo c) w = (Returned (VStr (CustomerM.get_info self)), w).
Proof.
  intros Hc. simpl. unfold on_customer. rewrite Hc. simpl.
  by rewrite with_customers_id.
Qed.

Lemma exec_get_account_owner_info w a self :
  accounts w !! a = Some self →
  exec (GetAccountOwnerInfo a) w = exec (GetInfo (owner self)) w.
Proof.
  intros Ha. simpl. rewrite Ha. unfold Account.get_account_owner_info.
  destruct (customers w !! owner self) as [c|] eqn:Hc; simpl.
  - pose proof (exec_get_info w _ c Hc) as Hg. simpl in Hg. by rewrite Hg.
  - unfold on_customer. by rewrite Hc.
Qed.

End Store_lemmas.

Lemma run_nonneg (cs : list call) : Inv.nonneg (Run.run cs startup).
Proof. apply (run_keeps Inv.nonneg exec_nonneg). apply Forall_nil_2. Qed.

(** C6.  Whatever calls are made from startup, in whatever order and on
    whatever objects, and whether they return or raise, no account of the
    store has a negative balance. *)
Theorem balance_never_negative (cs : list call) :
  Forall (λ self, 0 ≤ balance self) (accounts (Run.run cs startup)).
Proof. apply run_nonneg. Qed.

Example balance_never_negative_main :
  accounts (Run.run main_calls startup)
  = [mkBankAccount 0 0 1 true; mkBankAccount 1 222 2 false].
Proof. reflexivity. Qed.

(** C7.  After any calls from startup, the customer made next gets as
    [customer_id] one more than the number of customers made so far, and the
    account made next gets as [account_number] one more than the number of
    accounts made so far, whatever else was called in between; the
    identifiers held in the two stores are therefore 1, 2, 3, ... in order
    of creation, each store counted on its own. *)
Theorem ids_count_creations (cs : list call) :
  let w := Run.run cs startup in
  (∀ n e, ∃ l w',
      Run.exec (NewCustomer n e) w = (Returned (VRef l), w') ∧
      customers w' !! l
      = Some (mkCustomer n e (Z.of_nat (Inv.customers_created cs) + 1))) ∧
  (∀ o, ∃ l w',
      Run.exec (NewBankAccount o) w = (Returned (VRef l), w') ∧
      accounts w' !! l
      = Some (fresh_account o (Z.of_nat (Inv.accounts_created cs) + 1))) ∧
  customer_id <$> customers w
  = Z.of_nat <$> seq 1 (Inv.customers_created cs) ∧
  account_number <$> accounts w
  = Z.of_nat <$> seq 1 (Inv.accounts_created cs).
Proof.
  destruct startup_numbered as [Hc0 Ha0].
  destruct (run_numbered cs startup Hc0 Ha0)
    as [[[Hcc Hci] Hcl] [[Hac Hai] Hal]].
  simpl in Hcl, Hal. intros w. fold w in Hcc, Hci, Hcl, Hac, Hai, Hal.
  split_and!.
  - intros n e. eexists _, _. split; [reflexivity|]. simpl.
    rewrite Hcc, Hcl. apply list_lookup_middle. by rewrite Hcl.
  - intros o. eexists _, _. split; [reflexivity|]. simpl.
    rewrite Hac, Hal. apply list_lookup_middle. by rewrite Hal.
  - by rewrite Hci, Hcl.
  - by rewrite Hai, Hal.
Qed.

(** C1, as stated, fails for a non-positive argument: once the balance of
    an account has been assigned, assigning 0 (or a negative value) raises,
    it is not silently ignored. *)
Lemma balance_setter_still_raises :
  let w := Run.run [NewCustomer "Mark" "mark@mail.ua"; NewBankAccount 0%nat;
                    SetBalance 0%nat 222] startup in
  accounts w = [mkBankAccount 0 222 1 false] ∧
  Run.exec (SetBalance 0%nat 0) w
  = (Raised (ValueError "Balance should be above 0."), w) ∧
  fst (Run.exec (SetBalance 0%nat 0) w) ≠ Returned VNone ∧
  fst (Account.balance_setter (-1) (mkBankAccount 0 222 1 false))
  = Raise (ValueError "Balance should be above 0.").
Proof. vm_compute. split_and!; done. Qed.

(** C1, amended.  Once an assignment of [v > 0] to [balance] has been made
    on an account whose initiation flag was set, then after any further
    calls on any objects, an assignment to [balance] of that account with a
    positive value returns and changes nothing, and one with a value
    [<= 0] raises (the [ValueError] "Balance should be above 0.") and
    changes nothing either. *)
Theorem balance_setter_after_first
    (w : World) (a : loc) (self : BankAccount) (v : Z)
    (cs : list call) (v' : Z) :
  accounts w !! a = Some self →
  account_initiation self = true →
  0 < v →
  let w1 := snd (Run.exec (SetBalance a v) w) in
  let w2 := Run.run cs w1 in
  fst (Run.exec (SetBalance a v) w) = Returned VNone ∧
  accounts w1 !! a = Some (mkBankAccount (owner self) v (account_number self) false) ∧
  (0 < v' → Run.exec (SetBalance a v') w2 = (Returned VNone, w2)) ∧
  (v' ≤ 0 →
     Run.exec (SetBalance a v') w2
     = (Raised (ValueError "Balance should be above 0."), w2)).
Proof.
  intros Ha Hi Hv w1 w2.
  assert (Run.exec (SetBalance a v) w
          = (Returned VNone,
             Store.with_accounts
               (<[a := mkBankAccount (owner self) v (account_number self) false]>
                  (accounts w)) w)) as Hfirst.
  { simpl. unfold Run.on_account. rewrite Ha.
    by rewrite balance_setter_assigns by done. }
  assert (accounts w1 !! a
          = Some (mkBankAccount (owner self) v (account_number self) false))
    as Ha1.
  { unfold w1. rewrite Hfirst. simpl.
    apply list_lookup_insert_eq. by eapply lookup_lt_Some. }
  assert (Inv.locked a w2) as (self2 & Ha2 & Hi2).
  { apply (run_keeps (Inv.locked a) (exec_locked a)). by eexists. }
  split_and!.
  - by rewrite Hfirst.
  - done.
  - intros Hv'. simpl.
    apply (on_account_same a _ (λ _, VNone) w2 self2 (Ok tt) Ha2).
    by apply balance_setter_ignores.
  - intros Hv'. simpl.
    apply (on_account_same a _ (λ _, VNone) w2 self2
             (Raise Account.err_balance) Ha2).
    by apply balance_setter_raises.
Qed.

Lemma balance_setter_after_first_witness :
  let w := Run.run [NewCustomer "Mark" "mark@mail.ua"; NewBankAccount 0%nat]
             startup in
  let w2 := Run.run [TopUp 0%nat 10; Withdraw 0%nat 3; NewBankAccount 0%nat]
              (snd (Run.exec (SetBalance 0%nat 222) w)) in
  Run.exec (SetBalance 0%nat 2202) w2 = (Returned VNone, w2) ∧
  Run.exec (SetBalance 0%nat 0) w2
  = (Raised (ValueError "Balance should be above 0."), w2).
Proof.
  pose proof (balance_setter_after_first
                (Run.run [NewCustomer "Mark" "mark@mail.ua"; NewBankAccount 0%nat]
                   startup)
                0%nat (fresh_account 0 1) 222
                [TopUp 0%nat 10; Withdraw 0%nat 3; NewBankAccount 0%nat])
    as H.
  split.
  - apply (H 2202); [reflexivity | reflexivity | lia | lia].
  - apply (H 0); [reflexivity | reflexivity | lia | lia].
Defined.



(** C8.  [get_account_owner_info] on an account gives what [get_info] on
    its owner gives in the same state of the store; so once the owner's
    [email] has been assigned, it shows the new address. *)
Theorem owner_info_is_get_info (w : World) (a : loc) (self : BankAccount) :
  accounts w !! a = Some self →
  Run.exec (GetAccountOwnerInfo a) w = Run.exec (GetInfo (owner self)) w ∧
  ∀ (c : Customer) (new_email : string),
    customers w !! owner self = Some c →
    let w' := snd (Run.exec (SetEmail (owner self) new_email) w) in
    Run.exec (GetAccountOwnerInfo a) w'
    = (Returned (VStr ("Customer: " +:+ name c +:+ " " +:+ nl +:+
                       "Email: " +:+ new_email +:+ " " +:+ nl +:+
                       "Customer ID: " +:+ str (customer_id c))), w') ∧
    Run.exec (GetAccountOwnerInfo a) w' = Run.exec (GetInfo (owner self)) w'.
Proof.
  intros Ha. split; [by apply exec_get_account_owner_info|].
  intros c new_email Hc w'.
  assert (accounts w' !! a = Some self) as Ha'.
  { unfold w'. simpl. unfold Run.on_customer. by rewrite Hc. }
  assert (customers w' !! owner self = Some (CustomerM.with_email new_email c))
    as Hc'.
  { unfold w'. simpl. unfold Run.on_customer. rewrite Hc. simpl.
    apply list_lookup_insert_eq. by eapply lookup_lt_Some. }
  rewrite (exec_get_account_owner_info w' a self Ha').
  by rewrite (exec_get_info w' _ _ Hc').
Qed.

Lemma owner_info_is_get_info_witness :
  let w := Run.run [NewCustomer "Mark" "mark@mail.ua"; NewBankAccount 0%nat]
             startup in
  let w' := snd (Run.exec (SetEmail 0%nat "mark@mail.com") w) in
  Run.exec (GetAccountOwnerInfo 0%nat) w
  = (Returned (VStr ("Customer: Mark " +:+ nl +:+ "Email: mark@mail.ua " +:+ nl +:+
                     "Customer ID: 1")), w) ∧
  Run.exec (GetAccountOwnerInfo 0%nat) w'
  = (Returned (VStr ("Customer: Mark " +:+ nl +:+ "Email: mark@mail.com " +:+ nl +:+
                     "Customer ID: 1")), w').
Proof.
  pose proof (owner_info_is_get_info
                (Run.run [NewCustomer "Mark" "mark@mail.ua"; NewBankAccount 0%nat]
                   startup)
                0%nat (fresh_account 0 1) eq_refl) as [H1 H2].
  split.
  - rewrite H1. reflexivity.
  - apply (H2 (mkCustomer "Mark" "mark@mail.ua" 1) "mark@mail.com" eq_refl).
Defined.


Example main_from_startup :
  main (Main.mkProc startup [])
  = Some (Ok tt,
          Main.mkProc (Run.run main_calls startup)
            [ "Customer: Davide Blane " +:+ nl +:+
              "Email: dave@mail.com " +:+ nl +:+ "Customer ID: 1";
              "Account number: 2";
              "Customer: Mark " +:+ nl +:+
              "Email: mark@mail.ua " +:+ nl +:+ "Customer ID: 2";
              "222"; "222" ]).
Proof. vm_compute. reflexivity. Qed.

(** ** Further properties of single calls on the store *)

Section Calls.
Import Store Run.

Lemma on_customer_same {A} c (m : method Customer A) inj w :
  (∀ self, snd (m self) = self) → snd (on_customer c m inj w) = w.
Proof.
  intros Hm. unfold on_customer.
  destruct (customers w !! c) as [self|] eqn:Hc; [|done].
  specialize (Hm self). destruct (m self) as [r self']; simpl in *; subst.
  by apply with_customers_id.
Qed.

Lemma on_account_reads {A} a (m : method BankAccount A) inj w :
  (∀ self, snd (m self) = self) → snd (on_account a m inj w) = w.
Proof.
  intros Hm. unfold on_account.
  destruct (accounts w !! a) as [self|] eqn:Ha; [|done].
  specialize (Hm self). destruct (m self) as [r self']; simpl in *; subst.
  by apply with_accounts_id.
Qed.



End Calls.

(** X1.  The calls that only read ([get_info], the [email] and [balance]
    getters, [get_account_number], [get_account_owner_info]) leave the
    whole store as it is, whatever reference they are made through. *)
Theorem readers_change_nothing (l : loc) (w : World) :
  snd (Run.exec (GetInfo l) w) = w ∧
  snd (Run.exec (GetEmail l) w) = w ∧
  snd (Run.exec (GetAccountNumber l) w) = w ∧
  snd (Run.exec (GetAccountOwnerInfo l) w) = w ∧
  snd (Run.exec (GetBalance l) w) = w.
Proof.
  split_and!; simpl.
  - by apply on_customer_same.
  - by apply on_customer_same.
  - by apply on_account_reads.
  - destruct (accounts w !! l) as [self|]; [|done].
    by destruct (Account.get_account_owner_info _ _).
  - by apply on_account_reads.
Qed.



(** X3.  Assigning [email] on a customer never raises, whatever the text;
    the [email] getter then gives that text, the name and the identifier of
    the customer are as before, and nothing else in the store (other
    customers, accounts, counters) has changed. *)
Theorem email_assignment (w : World) (c : loc) (self : Customer) (e : string) :
  customers w !! c = Some self →
  let w' := snd (Run.exec (SetEmail c e) w) in
  fst (Run.exec (SetEmail c e) w) = Returned VNone ∧
  Run.exec (GetEmail c) w' = (Returned (VStr e), w') ∧
  customers w' !! c = Some (mkCustomer (name self) e (customer_id self)) ∧
  (∀ c', c' ≠ c → customers w' !! c' = customers w !! c') ∧
  length (customers w') = length (customers w) ∧
  accounts w' = accounts w ∧
  customer_counter w' = customer_counter w ∧
  account_counter w' = account_counter w.
Proof.
  intros Hc w'.
  assert (Run.exec (SetEmail c e) w
          = (Returned VNone,
             Store.with_customers
               (<[c := CustomerM.with_email e self]> (customers w)) w)) as Hx.
  { simpl. unfold Run.on_customer. by rewrite Hc. }
  assert (customers w' !! c = Some (CustomerM.with_email e self)) as Hc'.
  { unfold w'. rewrite Hx. simpl.
    apply list_lookup_insert_eq. by eapply lookup_lt_Some. }
  split_and!.
  - by rewrite Hx.
  - simpl. unfold Run.on_customer. rewrite Hc'. simpl.
    by rewrite with_customers_id.
  - done.
  - intros c' Hne. unfold w'. rewrite Hx. simpl.
    by apply list_lookup_insert_ne.
  - unfold w'. rewrite Hx. simpl. by rewrite length_insert.
  - unfold w'. by rewrite Hx.
  - unfold w'. by rewrite Hx.
  - unfold w'. by rewrite Hx.
Qed.

Lemma email_assignment_witness :
  let w := Run.run [NewCustomer "Davide Blane" "dave@mail.com";
                    NewCustomer "Mark" "mark@mail.ua"] startup in
  let w' := snd (Run.exec (SetEmail 1%nat "") w) in
  Run.exec (GetEmail 1%nat) w' = (Returned (VStr ""), w') ∧
  customers w' !! 1%nat = Some (mkCustomer "Mark" "" 2).
Proof.
  pose proof (email_assignment
                (Run.run [NewCustomer "Davide Blane" "dave@mail.com";
                          NewCustomer "Mark" "mark@mail.ua"] startup)
                1%nat (mkCustomer "Mark" "mark@mail.ua" 2) "" eq_refl)
    as (_ & H1 & H2 & _).
  split; [apply H1 | apply H2].
Defined.

(** ** Objects over a run *)

Section Persistence.
Import Store Run Frame.

Lemma account_kept_trans s1 s2 s3 :
  account_kept s1 s2 → account_kept s2 s3 → account_kept s1 s3.
Proof.
  intros [H1 H2 H3 H4] [K1 K2 K3 K4].
  split; [congruence | congruence | auto | auto].
Qed.

Lemma customer_kept_trans s1 s2 s3 :
  customer_kept s1 s2 → customer_kept s2 s3 → customer_kept s1 s3.
Proof. intros [H1 H2] [K1 K2]. split; congruence. Qed.

Lemma exec_account_stays c w a self :
  accounts w !! a = Some self →
  ∃ self', accounts (snd (exec c w)) !! a = Some self' ∧ account_kept self self'.
Proof.
  intros Ha. destruct (exec_step c w) as [Hs _].
  destruct Hs as [Heq _ | a' self0 self' Hl Hk Heq _ | o Heq _]; rewrite Heq.
  - exists self. split; [done | apply account_kept_refl].
  - destruct (decide (a' = a)) as [->|Hne].
    + exists self'. split.
      * apply list_lookup_insert_eq. by eapply lookup_lt_Some.
      * congruence.
    + exists self. rewrite list_lookup_insert_ne by done.
      split; [done | apply account_kept_refl].
  - exists self. split; [by apply lookup_app_l_Some | apply account_kept_refl].
Qed.

Lemma exec_customer_stays c w l self :
  customers w !! l = Some self →
  ∃ self', customers (snd (exec c w)) !! l = Some self' ∧
           customer_kept self self'.
Proof.
  intros Hl. destruct (exec_step c w) as [_ Hs].
  destruct Hs as [Heq _ | l' self0 self' Hl' Hk Heq _ | n e Heq _]; rewrite Heq.
  - exists self. by split.
  - destruct (decide (l' = l)) as [->|Hne].
    + exists self'. split.
      * apply list_lookup_insert_eq. by eapply lookup_lt_Some.
      * congruence.
    + exists self. rewrite list_lookup_insert_ne by done. by split.
  - exists self. split; [by apply lookup_app_l_Some | by split].
Qed.

Lemma run_account_stays cs w a self :
  accounts w !! a = Some self →
  ∃ self', accounts (run cs w) !! a = Some self' ∧ account_kept self self'.
Proof.
  revert w self. induction cs as [|c cs IH]; intros w self Ha; simpl.
  - exists self. split; [done | apply account_kept_refl].
  - destruct (exec_account_stays c w a self Ha) as (s1 & H1 & K1).
    destruct (IH _ _ H1) as (s2 & H2 & K2).
    exists s2. split; [done | by eapply account_kept_trans].
Qed.

Lemma run_customer_stays cs w l self :
  customers w !! l = Some self →
  ∃ self', customers (run cs w) !! l = Some self' ∧ customer_kept self self'.
Proof.
  revert w self. induction cs as [|c cs IH]; intros w self Hl; simpl.
  - exists self. by split.
  - destruct (exec_customer_stays c w l self Hl) as (s1 & H1 & K1).
    destruct (IH _ _ H1) as (s2 & H2 & K2).
    exists s2. split; [done | by eapply customer_kept_trans].
Qed.

End Persistence.

(** X4.  No method or property of the two classes removes or replaces an
    object, and none changes what identifies it: after any run of calls, an
    account is still behind its reference with the same owner and the same
    account number, and a customer with the same name and the same customer
    identifier. *)
Theorem identity_survives_runs (cs : list call) (w : World) :
  (∀ a self, accounts w !! a = Some self →
     ∃ self', accounts (Run.run cs w) !! a = Some self' ∧
              owner self' = owner self ∧
              account_number self' = account_number self) ∧
  (∀ c self, customers w !! c = Some self →
     ∃ self', customers (Run.run cs w) !! c = Some self' ∧
              name self' = name self ∧
              customer_id self' = customer_id self).
Proof.
  split.
  - intros a self Ha.
    destruct (run_account_stays cs w a self Ha) as (self' & H & [K1 K2 _ _]).
    by exists self'.
  - intros c self Hc.
    destruct (run_customer_stays cs w c self Hc) as (self' & H & [K1 K2]).
    by exists self'.
Qed.

Lemma identity_survives_runs_witness :
  let w := Run.run [NewCustomer "Mark" "mark@mail.ua"; NewBankAccount 0%nat]
             startup in
  let cs := [SetEmail 0%nat "m@mail.ua"; TopUp 0%nat 5; SetBalance 0%nat 9;
             NewCustomer "Davide Blane" "dave@mail.com"; NewBankAccount 1%nat] in
  (∃ self', accounts (Run.run cs w) !! 0%nat = Some self' ∧
            owner self' = 0%nat ∧ account_number self' = 1) ∧
  (∃ self', customers (Run.run cs w) !! 0%nat = Some self' ∧
            name self' = "Mark" ∧ customer_id self' = 1).
Proof.
  pose proof (identity_survives_runs
                [SetEmail 0%nat "m@mail.ua"; TopUp 0%nat 5; SetBalance 0%nat 9;
                 NewCustomer "Davide Blane" "dave@mail.com";
                 NewBankAccount 1%nat]
                (Run.run [NewCustomer "Mark" "mark@mail.ua"; NewBankAccount 0%nat]
                   startup)) as [Ha Hc].
  split.
  - apply (Ha 0%nat (fresh_account 0 1) eq_refl).
  - apply (Hc 0%nat (mkCustomer "Mark" "mark@mail.ua" 1) eq_refl).
Defined.

(** X5.  A [top_up] that returns ends the initiation of the account for
    good: whatever is called afterwards, an assignment of a positive value
    to [balance] of that account returns and changes nothing. *)
Theorem top_up_ends_initiation
    (w : World) (a : loc) (self : BankAccount) (v : Z)
    (cs : list call) (v' : Z) :
  accounts w !! a = Some self →
  0 < v →
  0 < v' →
  let w2 := Run.run cs (snd (Run.exec (TopUp a v) w)) in
  accounts (snd (Run.exec (TopUp a v) w)) !! a
  = Some (mkBankAccount (owner self) (balance self + v)
            (account_number self) false) ∧
  Run.exec (SetBalance a v') w2 = (Returned VNone, w2).
Proof.
  intros Ha Hv Hv' w2.
  assert (accounts (snd (Run.exec (TopUp a v) w)) !! a
          = Some (mkBankAccount (owner self) (balance self + v)
                    (account_number self) false)) as Ha1.
  { simpl. unfold Run.on_account. rewrite Ha.
    rewrite top_up_returns by done. simpl.
    apply list_lookup_insert_eq. by eapply lookup_lt_Some. }
  split; [done|].
  assert (Inv.locked a w2) as (self2 & Ha2 & Hi2).
  { apply (run_keeps (Inv.locked a) (exec_locked a)). by eexists. }
  simpl. apply (on_account_same a _ (λ _, VNone) w2 self2 (Ok tt) Ha2).
  by apply balance_setter_ignores.
Qed.

Lemma top_up_ends_initiation_witness :
  let w := Run.run [NewCustomer "Mark" "mark@mail.ua"; NewBankAccount 0%nat]
             startup in
  let w2 := Run.run [Withdraw 0%nat 10; NewBankAccount 0%nat]
              (snd (Run.exec (TopUp 0%nat 10) w)) in
  Run.exec (SetBalance 0%nat 222) w2 = (Returned VNone, w2).
Proof.
  apply (top_up_ends_initiation
           (Run.run [NewCustomer "Mark" "mark@mail.ua"; NewBankAccount 0%nat]
              startup)
           0%nat (fresh_account 0 1) 10
           [Withdraw 0%nat 10; NewBankAccount 0%nat] 222);
    [reflexivity | lia | lia].
Defined.

(** ** How the calls on one account compose *)





(** ** Account numbers as text *)

(** X8.  In a store reached from startup, the account created [i+1]-th
    answers [get_account_number] with "Account number: " followed by
    [i+1] in decimal, whatever was called since; two different accounts
    never give the same text. *)
Theorem account_number_texts
    (cs : list call) (i j : loc) (si sj : BankAccount) :
  accounts (Run.run cs startup) !! i = Some si →
  accounts (Run.run cs startup) !! j = Some sj →
  fst (Account.get_account_number si)
  = Ok ("Account number: " +:+ str (Z.of_nat i + 1)) ∧
  (i ≠ j →
   fst (Account.get_account_number si) ≠ fst (Account.get_account_number sj)).
Proof.
  intros Hi Hj.
  destruct startup_numbered as [Hc0 Ha0].
  destruct (run_numbered cs startup Hc0 Ha0) as [_ [[_ Hnum] _]].
  assert (∀ k s, accounts (Run.run cs startup) !! k = Some s →
                 account_number s = Z.of_nat k + 1) as Hk.
  { intros k s Hs.
    assert ((account_number <$> accounts (Run.run cs startup)) !! k
            = Some (account_number s)) as H1 by by rewrite list_lookup_fmap, Hs.
    rewrite Hnum, list_lookup_fmap in H1.
    apply lookup_lt_Some in Hs.
    rewrite lookup_seq_lt in H1 by done. simpl in H1.
    injection H1 as <-. lia. }
  unfold Account.get_account_number, bind, get, ret. simpl.
  rewrite (Hk _ _ Hi), (Hk _ _ Hj). split; [done|].
  intros Hne [= Heq]. simpl in Heq. unfold str in Heq.
  apply pretty_Z_inj in Heq. lia.
Qed.

Lemma account_number_texts_witness :
  fst (Account.get_account_number (mkBankAccount 1 222 2 false))
  = Ok "Account number: 2" ∧
  fst (Account.get_account_number (mkBankAccount 1 222 2 false))
  ≠ fst (Account.get_account_number (fresh_account 0 1)).
Proof.
  destruct (account_number_texts main_calls 1%nat 0%nat
              (mkBankAccount 1 222 2 false) (fresh_account 0 1)
              eq_refl eq_refl) as [H1 H2].
  split; [apply H1 | apply H2; lia].
Defined.

(** ** The balance as a ledger *)

Section Ledger_lemmas.
Import Store Run Ledger.





End Ledger_lemmas.




(** ** The program [main] *)

Section Main_lemmas.
Import Store Main.

Lemma lookup_snoc {A} (l : list A) (x : A) : (l ++ [x]) !! length l = Some x.
Proof. by apply list_lookup_middle. Qed.

Lemma insert_snoc {A} (l : list A) (x z : A) :
  <[length l := z]> (l ++ [x]) = l ++ [z].
Proof. induction l as [|y l IH]; simpl; [done | by rewrite IH]. Qed.

Lemma pbind_ok {A B} (m : prog A) (k : A → prog B) p a p' :
  m p = Some (Ok a, p') → pbind m k p = k a p'.
Proof. intros H. unfold pbind. by rewrite H. Qed.

Lemma pbind_print {B} s (k : unit → prog B) w out :
  pbind (print s) k (mkProc w out) = k tt (mkProc w (out ++ [s])).
Proof. reflexivity. Qed.

Lemma pbind_create {B} (m : method World loc) (k : loc → prog B) w out l w' :
  m w = (Ok l, w') →
  pbind (create m) k (mkProc w out) = k l (mkProc w' out).
Proof. intros H. unfold pbind, create. simpl. by rewrite H. Qed.

Lemma owner_info_at a w out self c :
  accounts w !! a = Some self →
  customers w !! owner self = Some c →
  owner_info a (mkProc w out) = Some (Ok (CustomerM.get_info c), mkProc w out).
Proof.
  intros Ha Hc. unfold owner_info, Account.get_account_owner_info. simpl.
  by rewrite Ha, Hc.
Qed.

Lemma at_account_snoc {A} (m : method BankAccount A) cc ac cs bs self out :
  at_account (length bs) m (mkProc (mkWorld cc ac cs (bs ++ [self])) out)
  = Some (fst (m self),
          mkProc (mkWorld cc ac cs (bs ++ [snd (m self)])) out).
Proof.
  unfold at_account. simpl. rewrite lookup_snoc.
  destruct (m self) as [r self']. simpl.
  unfold with_accounts. simpl. by rewrite insert_snoc.
Qed.

End Main_lemmas.

(** X10.  From any state of the process, [main] runs to its end without an
    exception.  It makes two customers and one account for each, numbered
    with the next two values of each class counter, and prints five
    lines: the info of the first customer, the number of the second
    account, the info of the second customer, and twice 222, the second
    assignment to the balance ([2202]) having been ignored.  Nothing that
    was in the store before is changed. *)
Theorem main_runs (w : World) (out : list string) :
  let c1 := mkCustomer "Davide Blane" "dave@mail.com" (customer_counter w + 1) in
  let c3 := mkCustomer "Mark" "mark@mail.ua" (customer_counter w + 2) in
  let n := length (customers w) in
  main (Main.mkProc w out)
  = Some (Ok tt,
          Main.mkProc
            (mkWorld (customer_counter w + 2) (account_counter w + 2)
               (customers w ++ [c1; c3])
               (accounts w ++
                  [fresh_account n (account_counter w + 1);
                   mkBankAccount (S n) 222 (account_counter w + 2) false]))
            (out ++ [CustomerM.get_info c1;
                     "Account number: " +:+ str (account_counter w + 2);
                     CustomerM.get_info c3;
                     "222"; "222"])).
Proof.
  destruct w as [cc ac cs bs].
  cbn [customer_counter account_counter customers accounts].
  set (c1 := mkCustomer "Davide Blane" "dave@mail.com" (cc + 1)).
  set (c3 := mkCustomer "Mark" "mark@mail.ua" (cc + 2)).
  set (n := length cs).
  set (b1 := fresh_account n (ac + 1)).
  unfold main.
  rewrite (pbind_create _ _ _ _ n (mkWorld (cc + 1) ac (cs ++ [c1]) bs))
    by reflexivity.
  rewrite (pbind_create _ _ _ _ (S n)
             (mkWorld (cc + 2) ac (cs ++ [c1; c3]) bs)).
  2:{ unfold Store.Customer__init__, Store.new_customer, bind, get, put, ret.
      cbn [customer_counter account_counter customers accounts
           Store.with_customers Store.with_customer_counter].
      rewrite length_app, Nat.add_1_r, <- app_assoc.
      by replace (cc + 1 + 1) with (cc + 2) by lia. }
  rewrite (pbind_create _ _ _ _ (length bs)
             (mkWorld (cc + 2) (ac + 1) (cs ++ [c1; c3]) (bs ++ [b1])))
    by reflexivity.
  rewrite (pbind_create _ _ _ _ (length (bs ++ [b1]))
             (mkWorld (cc + 2) (ac + 2) (cs ++ [c1; c3])
                ((bs ++ [b1]) ++ [fresh_account (S n) (ac + 2)]))).
  2:{ unfold Store.BankAccount__init__, Store.new_account, bind, get, put, ret.
      cbn [customer_counter account_counter customers accounts
           Store.with_accounts Store.with_account_counter].
      by replace (ac + 1 + 1) with (ac + 2) by lia. }
  set (b3 := fresh_account (S n) (ac + 2)).
  set (W := mkWorld (cc + 2) (ac + 2) (cs ++ [c1; c3]) ((bs ++ [b1]) ++ [b3])).
  assert (accounts W !! length bs = Some b1) as Hb1
    by (by apply lookup_app_l_Some, lookup_snoc).
  assert (customers W !! owner b1 = Some c1) as Hc1
    by (by apply list_lookup_middle).
  rewrite (pbind_ok _ _ _ _ _ (owner_info_at _ W out b1 c1 Hb1 Hc1)).
  rewrite pbind_print. unfold W.
  rewrite (pbind_ok _ _ _ _ _
             (at_account_snoc Account.get_account_number _ _ _ _ _ _)).
  rewrite pbind_print.
  change ((Account.get_account_number b3).2) with b3.
  change (account_number b3) with (ac + 2). fold W.
  assert (accounts W !! length (bs ++ [b1]) = Some b3) as Hb3
    by apply lookup_snoc.
  assert (customers W !! owner b3 = Some c3) as Hc3.
  { change (customers W !! owner b3) with ((cs ++ ([c1] ++ [c3])) !! S n).
    rewrite (app_assoc cs [c1] [c3]).
    apply (list_lookup_middle (cs ++ [c1]) [] c3 (S n)).
    by rewrite length_app, Nat.add_1_r. }
  rewrite (pbind_ok _ _ _ _ _ (owner_info_at _ W _ b3 c3 Hb3 Hc3)).
  rewrite pbind_print. unfold W.
  rewrite (pbind_ok _ _ _ _ _
             (at_account_snoc (Account.balance_setter 222) _ _ _ _ b3 _)).
  change ((Account.balance_setter 222 b3).2)
    with (mkBankAccount (S n) 222 (ac + 2) false).
  rewrite (pbind_ok _ _ _ _ _
             (at_account_snoc Account.balance_getter _ _ _ _ _ _)).
  rewrite pbind_print.
  rewrite (pbind_ok _ _ _ _ _
             (at_account_snoc (Account.balance_setter 2202) _ _ _ _
                (mkBankAccount (S n) 222 (ac + 2) false) _)).
  rewrite (pbind_ok _ _ _ _ _
             (at_account_snoc Account.balance_getter _ _ _ _ _ _)).
  unfold Main.print.
  cbn [Main.world Main.stdout fst snd Account.balance_getter get balance].
  rewrite <- !app_assoc. reflexivity.
Qed.


(** ** Customer infos as text *)

Section Text_lemmas.
Import Text.

Lemma append_cons (x : Ascii.ascii) (a b : string) :
  String x a +:+ b = String x (a +:+ b).
Proof. reflexivity. Qed.

Lemma append_nil_l (b : string) : "" +:+ b = b.
Proof. reflexivity. Qed.

Lemma append_assoc (a b c : string) : (a +:+ b) +:+ c = a +:+ b +:+ c.
Proof.
  induction a as [|x a IH]; [done|].
  rewrite !append_cons. by f_equal.
Qed.

Lemma spaceless_go (x : N) (s : string) :
  spaceless s → spaceless (pretty_N_go x s).
Proof.
  revert s. induction (N.lt_wf_0 x) as [x _ IH]; intros s Hs.
  destruct (decide (x = 0)%N) as [->|Hx].
  - by rewrite pretty_N_go_0.
  - rewrite pretty_N_go_step by lia.
    apply IH; [apply N.div_lt; lia|].
    split; [|done].
    unfold pretty_N_char. by repeat case_match.
Qed.

Lemma spaceless_str (z : Z) : spaceless (str z).
Proof.
  unfold str, pretty, pretty_Z.
  destruct z as [|p|p].
  - by repeat split.
  - unfold pretty, pretty_positive, pretty, pretty_N.
    case_decide; [by repeat split | by apply spaceless_go].
  - split; [done|].
    unfold pretty, pretty_positive, pretty, pretty_N.
    case_decide; [by repeat split | by apply spaceless_go].
Qed.

Lemma space_inside (x y : string) :
  ¬ spaceless (x +:+ String Ascii.Space y).
Proof.
  induction x as [|c x IH].
  - by intros [? _].
  - rewrite append_cons. by intros [_ ?].
Qed.

(** The text after the last space is determined. *)
Lemma last_word (a b d1 d2 : string) :
  spaceless d1 → spaceless d2 →
  a +:+ String Ascii.Space d1 = b +:+ String Ascii.Space d2 → d1 = d2.
Proof.
  intros H1 H2. revert b.
  induction a as [|c a IH]; intros [|c' b];
    rewrite ?append_cons, ?append_nil_l; intros Heq.
  - by injection Heq.
  - injection Heq as _ ->. by apply space_inside in H1.
  - injection Heq as _ <-. by apply space_inside in H2.
  - injection Heq as _ Heq. by apply (IH b).
Qed.

Lemma get_info_split (self : Customer) :
  CustomerM.get_info self
  = info_head self +:+ " " +:+ str (customer_id self).
Proof.
  unfold CustomerM.get_info, info_head.
  rewrite !append_assoc. reflexivity.
Qed.

End Text_lemmas.

(** X11.  The text of [get_info] tells the customer identifier: two
    customers with the same text have the same identifier, whatever their
    names and addresses are.  So in a store reached from startup, where the
    customer made [i+1]-th has identifier [i+1], different customers never
    give the same text. *)
Theorem customer_info_texts
    (cs : list call) (i j : loc) (ci cj : Customer) :
  (∀ c1 c2, CustomerM.get_info c1 = CustomerM.get_info c2 →
            customer_id c1 = customer_id c2) ∧
  (customers (Run.run cs startup) !! i = Some ci →
   customers (Run.run cs startup) !! j = Some cj →
   customer_id ci = Z.of_nat i + 1 ∧
   (i ≠ j → CustomerM.get_info ci ≠ CustomerM.get_info cj)).
Proof.
  assert (∀ c1 c2, CustomerM.get_info c1 = CustomerM.get_info c2 →
                   customer_id c1 = customer_id c2) as Hinj.
  { intros c1 c2. rewrite !get_info_split. intros Heq.
    apply (last_word (Text.info_head c1) (Text.info_head c2)) in Heq; [|apply spaceless_str..].
    unfold str in Heq. by apply pretty_Z_inj in Heq. }
  split; [done|]. intros Hi Hj.
  destruct startup_numbered as [Hc0 Ha0].
  destruct (run_numbered cs startup Hc0 Ha0) as [[[_ Hnum] _] _].
  assert (∀ k c, customers (Run.run cs startup) !! k = Some c →
                 customer_id c = Z.of_nat k + 1) as Hk.
  { intros k c Hc.
    assert ((customer_id <$> customers (Run.run cs startup)) !! k
            = Some (customer_id c)) as H1 by by rewrite list_lookup_fmap, Hc.
    rewrite Hnum, list_lookup_fmap in H1.
    apply lookup_lt_Some in Hc.
    rewrite lookup_seq_lt in H1 by done. simpl in H1.
    injection H1 as <-. lia. }
  split; [by apply Hk|].
  intros Hne Heq. apply Hinj in Heq.
  rewrite (Hk _ _ Hi), (Hk _ _ Hj) in Heq. lia.
Qed.

Lemma customer_info_texts_witness :
  customer_id (mkCustomer "Mark" "mark@mail.ua" 2) = 2 ∧
  CustomerM.get_info (mkCustomer "Mark" "mark@mail.ua" 2)
  ≠ CustomerM.get_info (mkCustomer "Davide Blane" "dave@mail.com" 1).
Proof.
  destruct (proj2 (customer_info_texts main_calls 1%nat 0%nat
                     (mkCustomer "Mark" "mark@mail.ua" 2)
                     (mkCustomer "Davide Blane" "dave@mail.com" 1))
              eq_refl eq_refl) as [H1 H2].
  split; [apply H1 | apply H2; lia].
Defined.
